(** * LifeLine AI: the live triage session controller

    A shallow embedding of the duplex media session controller of the
    [LiveTriage] component (components/LiveTriage.tsx): session start and
    stop, microphone capture, camera frame sampling, gapless playback
    scheduling and tool-call dispatch.

    Conventions of the embedding.
    - JavaScript numbers that carry time (the audio clock, buffer durations,
      the playback cursor) are exact rationals [Q]; rounding of doubles is
      not modelled.
    - [undefined] and [null] are [None].
    - Every platform object (media stream, audio context, audio node, timer,
      live connection) is an identifier; the [World] record keeps which of
      them are still acquired, so that leaks can be counted.
    - An [async] function is cut at each [await]: the code up to the
      [await] runs in one step and leaves a [Task] behind; the code after it
      runs when the environment completes that task.  Callbacks handed to
      the platform are events of the environment. *)

From Stdlib Require Import List String Ascii Bool Arith ZArith QArith Qminmax Qround Lia Lqa.
Import ListNotations.

Local Open Scope string_scope.
Local Open Scope list_scope.

(** ** Data *)

Definition Id := nat.

(** types.ts: [RecommendedHospital]. *)
Record RecommendedHospital := {
  name : string;
  address : string;
  travelTime : string
}.

Inductive StatusSource := LIVE_OBSERVATION | DEEP_SCAN.

(** types.ts: [TriageStatus].  The handler fills the fields with
    unchecked casts of the tool arguments, so each text field may be
    [undefined]. *)
Record TriageStatus := {
  condition : option string;
  riskLevel : option string;
  immediateAction : option string;
  hospitalUrgency : option string;
  department : option string;
  contraindications : option string;
  reasoning : option string;
  recommendedHospital : option RecommendedHospital;
  lastUpdated : Z;
  source : StatusSource
}.

(** The arguments object of a function call, restricted to the properties
    the handler reads.  A property that is absent, or is not a string, is
    [None]. *)
Record Args := {
  arg_condition : option string;
  arg_riskLevel : option string;
  arg_immediateAction : option string;
  arg_hospitalUrgency : option string;
  arg_department : option string;
  arg_contraindications : option string;
  arg_reasoning : option string;
  arg_recommendedHospital : option RecommendedHospital
}.

(** @google/genai [FunctionCall]: all three members are optional. *)
Record FunctionCall := {
  fc_id : option string;
  fc_name : option string;
  fc_args : option Args
}.

(** One element of [functionResponses]. *)
Record FunctionResponse := {
  fr_id : option string;
  fr_name : option string;
  fr_result : string
}.

(** The parts of a [LiveServerMessage] the handler looks at.
    [audioData] is [serverContent?.modelTurn?.parts?.[0]?.inlineData?.data];
    [toolCall] is [None] when the member is absent, [Some None] when it is
    present without [functionCalls]. *)
Record Message := {
  audioData : option string;
  toolCall : option (option (list FunctionCall));
  inputTranscription : option string;
  outputTranscription : option string
}.

Inductive Quality := low | medium | high.

(** What [canvas.toBlob] is asked to encode. *)
Record FrameJob := {
  job_width : Z;
  job_height : Z;
  job_jpegQuality : Q
}.

(** Payload of [sendRealtimeInput]. *)
Inductive Media :=
| AudioChunk (samples : list Q)
| VideoFrame (job : FrameJob).

(** A [source.start(startTime)] call together with the buffer duration. *)
Record Segment := {
  seg_ctx : Id;
  seg_start : Q;
  seg_duration : Q
}.

Definition seg_end (g : Segment) : Q := seg_start g + seg_duration g.

(** Suspended continuations. *)
Inductive Task :=
| StartAwaitLocation
| StartAwaitMedia (location : string)
| StartAwaitResume (location : string) (stream ctx : Id)
| ConnectPending (sess : Id)
| DecodePending (m : Message) (ctx : Id)
| AudioSendPending (sess : Id) (blob : list Q)
| EncodePending (job : FrameJob)
| Base64Pending (job : FrameJob).

(** ** State *)

(** The [useState] cells. *)
Record Ui := {
  isConnected : bool;
  isStreaming : bool;
  error : option string;
  triageStatus : option TriageStatus;
  transcription : string;
  audioAnalyser : option Id;
  userLocation : string;
  isCPRMode : bool;
  fps : Q;
  quality : Quality
}.

(** The [useRef] cells.  [videoSrcObject] is [videoRef.current.srcObject];
    the video and canvas elements themselves are rendered unconditionally,
    so [videoRef.current] and [canvasRef.current] are present while the
    component is mounted. *)
Record Refs := {
  videoSrcObject : option Id;
  audioContextRef : option Id;
  inputSourceRef : option Id;
  processorRef : option Id;
  nextStartTimeRef : Q;
  sessionRef : option Id;
  frameIntervalRef : option Id;
  activeRef : bool
}.

(** The platform: what is acquired, what is pending, and what has been
    emitted. *)
Record World := {
  liveStreams : list Id;
  openContexts : list Id;
  connectedNodes : list Id;
  activeTimers : list Id;
  openSessions : list Id;
  nextId : Id;
  tasks : list Task;
  playback : list Segment;
  realtimeSent : list (Id * Media);
  toolResponsesSent : list (Id * list FunctionResponse);
  console : list string
}.

Record State := {
  ui : Ui;
  refs : Refs;
  world : World
}.

Definition with_ui (f : Ui -> Ui) (s : State) : State :=
  {| ui := f (ui s); refs := refs s; world := world s |}.
Definition with_refs (f : Refs -> Refs) (s : State) : State :=
  {| ui := ui s; refs := f (refs s); world := world s |}.
Definition with_world (f : World -> World) (s : State) : State :=
  {| ui := ui s; refs := refs s; world := f (world s) |}.

(** Field updates.  Each [upd_f v] replaces field [f] and copies the rest. *)

Definition upd_isConnected v (u : Ui) : Ui :=
  {| isConnected := v;
     isStreaming := isStreaming u;
     error := error u;
     triageStatus := triageStatus u;
     transcription := transcription u;
     audioAnalyser := audioAnalyser u;
     userLocation := userLocation u;
     isCPRMode := isCPRMode u;
     fps := fps u;
     quality := quality u |}.

Definition upd_isStreaming v (u : Ui) : Ui :=
  {| isConnected := isConnected u;
     isStreaming := v;
     error := error u;
     triageStatus := triageStatus u;
     transcription := transcription u;
     audioAnalyser := audioAnalyser u;
     userLocation := userLocation u;
     isCPRMode := isCPRMode u;
     fps := fps u;
     quality := quality u |}.

Definition upd_error v (u : Ui) : Ui :=
  {| isConnected := isConnected u;
     isStreaming := isStreaming u;
     error := v;
     triageStatus := triageStatus u;
     transcription := transcription u;
     audioAnalyser := audioAnalyser u;
     userLocation := userLocation u;
     isCPRMode := isCPRMode u;
     fps := fps u;
     quality := quality u |}.

Definition upd_triageStatus v (u : Ui) : Ui :=
  {| isConnected := isConnected u;
     isStreaming := isStreaming u;
     error := error u;
     triageStatus := v;
     transcription := transcription u;
     audioAnalyser := audioAnalyser u;
     userLocation := userLocation u;
     isCPRMode := isCPRMode u;
     fps := fps u;
     quality := quality u |}.

Definition upd_transcription v (u : Ui) : Ui :=
  {| isConnected := isConnected u;
     isStreaming := isStreaming u;
     error := error u;
     triageStatus := triageStatus u;
     transcription := v;
     audioAnalyser := audioAnalyser u;
     userLocation := userLocation u;
     isCPRMode := isCPRMode u;
     fps := fps u;
     quality := quality u |}.

Definition upd_audioAnalyser v (u : Ui) : Ui :=
  {| isConnected := isConnected u;
     isStreaming := isStreaming u;
     error := error u;
     triageStatus := triageStatus u;
     transcription := transcription u;
     audioAnalyser := v;
     userLocation := userLocation u;
     isCPRMode := isCPRMode u;
     fps := fps u;
     quality := quality u |}.

Definition upd_userLocation v (u : Ui) : Ui :=
  {| isConnected := isConnected u;
     isStreaming := isStreaming u;
     error := error u;
     triageStatus := triageStatus u;
     transcription := transcription u;
     audioAnalyser := audioAnalyser u;
     userLocation := v;
     isCPRMode := isCPRMode u;
     fps := fps u;
     quality := quality u |}.

Definition upd_isCPRMode v (u : Ui) : Ui :=
  {| isConnected := isConnected u;
     isStreaming := isStreaming u;
     error := error u;
     triageStatus := triageStatus u;
     transcription := transcription u;
     audioAnalyser := audioAnalyser u;
     userLocation := userLocation u;
     isCPRMode := v;
     fps := fps u;
     quality := quality u |}.

Definition upd_fps v (u : Ui) : Ui :=
  {| isConnected := isConnected u;
     isStreaming := isStreaming u;
     error := error u;
     triageStatus := triageStatus u;
     transcription := transcription u;
     audioAnalyser := audioAnalyser u;
     userLocation := userLocation u;
     isCPRMode := isCPRMode u;
     fps := v;
     quality := quality u |}.

Definition upd_quality v (u : Ui) : Ui :=
  {| isConnected := isConnected u;
     isStreaming := isStreaming u;
     error := error u;
     triageStatus := triageStatus u;
     transcription := transcription u;
     audioAnalyser := audioAnalyser u;
     userLocation := userLocation u;
     isCPRMode := isCPRMode u;
     fps := fps u;
     quality := v |}.

Definition upd_videoSrcObject v (r : Refs) : Refs :=
  {| videoSrcObject := v;
     audioContextRef := audioContextRef r;
     inputSourceRef := inputSourceRef r;
     processorRef := processorRef r;
     nextStartTimeRef := nextStartTimeRef r;
     sessionRef := sessionRef r;
     frameIntervalRef := frameIntervalRef r;
     activeRef := activeRef r |}.

Definition upd_audioContextRef v (r : Refs) : Refs :=
  {| videoSrcObject := videoSrcObject r;
     audioContextRef := v;
     inputSourceRef := inputSourceRef r;
     processorRef := processorRef r;
     nextStartTimeRef := nextStartTimeRef r;
     sessionRef := sessionRef r;
     frameIntervalRef := frameIntervalRef r;
     activeRef := activeRef r |}.

Definition upd_inputSourceRef v (r : Refs) : Refs :=
  {| videoSrcObject := videoSrcObject r;
     audioContextRef := audioContextRef r;
     inputSourceRef := v;
     processorRef := processorRef r;
     nextStartTimeRef := nextStartTimeRef r;
     sessionRef := sessionRef r;
     frameIntervalRef := frameIntervalRef r;
     activeRef := activeRef r |}.

Definition upd_processorRef v (r : Refs) : Refs :=
  {| videoSrcObject := videoSrcObject r;
     audioContextRef := audioContextRef r;
     inputSourceRef := inputSourceRef r;
     processorRef := v;
     nextStartTimeRef := nextStartTimeRef r;
     sessionRef := sessionRef r;
     frameIntervalRef := frameIntervalRef r;
     activeRef := activeRef r |}.

Definition upd_nextStartTimeRef v (r : Refs) : Refs :=
  {| videoSrcObject := videoSrcObject r;
     audioContextRef := audioContextRef r;
     inputSourceRef := inputSourceRef r;
     processorRef := processorRef r;
     nextStartTimeRef := v;
     sessionRef := sessionRef r;
     frameIntervalRef := frameIntervalRef r;
     activeRef := activeRef r |}.

Definition upd_sessionRef v (r : Refs) : Refs :=
  {| videoSrcObject := videoSrcObject r;
     audioContextRef := audioContextRef r;
     inputSourceRef := inputSourceRef r;
     processorRef := processorRef r;
     nextStartTimeRef := nextStartTimeRef r;
     sessionRef := v;
     frameIntervalRef := frameIntervalRef r;
     activeRef := activeRef r |}.

Definition upd_frameIntervalRef v (r : Refs) : Refs :=
  {| videoSrcObject := videoSrcObject r;
     audioContextRef := audioContextRef r;
     inputSourceRef := inputSourceRef r;
     processorRef := processorRef r;
     nextStartTimeRef := nextStartTimeRef r;
     sessionRef := sessionRef r;
     frameIntervalRef := v;
     activeRef := activeRef r |}.

Definition upd_activeRef v (r : Refs) : Refs :=
  {| videoSrcObject := videoSrcObject r;
     audioContextRef := audioContextRef r;
     inputSourceRef := inputSourceRef r;
     processorRef := processorRef r;
     nextStartTimeRef := nextStartTimeRef r;
     sessionRef := sessionRef r;
     frameIntervalRef := frameIntervalRef r;
     activeRef := v |}.

Definition upd_liveStreams v (w : World) : World :=
  {| liveStreams := v;
     openContexts := openContexts w;
     connectedNodes := connectedNodes w;
     activeTimers := activeTimers w;
     openSessions := openSessions w;
     nextId := nextId w;
     tasks := tasks w;
     playback := playback w;
     realtimeSent := realtimeSent w;
     toolResponsesSent := toolResponsesSent w;
     console := console w |}.

Definition upd_openContexts v (w : World) : World :=
  {| liveStreams := liveStreams w;
     openContexts := v;
     connectedNodes := connectedNodes w;
     activeTimers := activeTimers w;
     openSessions := openSessions w;
     nextId := nextId w;
     tasks := tasks w;
     playback := playback w;
     realtimeSent := realtimeSent w;
     toolResponsesSent := toolResponsesSent w;
     console := console w |}.

Definition upd_connectedNodes v (w : World) : World :=
  {| liveStreams := liveStreams w;
     openContexts := openContexts w;
     connectedNodes := v;
     activeTimers := activeTimers w;
     openSessions := openSessions w;
     nextId := nextId w;
     tasks := tasks w;
     playback := playback w;
     realtimeSent := realtimeSent w;
     toolResponsesSent := toolResponsesSent w;
     console := console w |}.

Definition upd_activeTimers v (w : World) : World :=
  {| liveStreams := liveStreams w;
     openContexts := openContexts w;
     connectedNodes := connectedNodes w;
     activeTimers := v;
     openSessions := openSessions w;
     nextId := nextId w;
     tasks := tasks w;
     playback := playback w;
     realtimeSent := realtimeSent w;
     toolResponsesSent := toolResponsesSent w;
     console := console w |}.

Definition upd_openSessions v (w : World) : World :=
  {| liveStreams := liveStreams w;
     openContexts := openContexts w;
     connectedNodes := connectedNodes w;
     activeTimers := activeTimers w;
     openSessions := v;
     nextId := nextId w;
     tasks := tasks w;
     playback := playback w;
     realtimeSent := realtimeSent w;
     toolResponsesSent := toolResponsesSent w;
     console := console w |}.

Definition upd_nextId v (w : World) : World :=
  {| liveStreams := liveStreams w;
     openContexts := openContexts w;
     connectedNodes := connectedNodes w;
     activeTimers := activeTimers w;
     openSessions := openSessions w;
     nextId := v;
     tasks := tasks w;
     playback := playback w;
     realtimeSent := realtimeSent w;
     toolResponsesSent := toolResponsesSent w;
     console := console w |}.

Definition upd_tasks v (w : World) : World :=
  {| liveStreams := liveStreams w;
     openContexts := openContexts w;
     connectedNodes := connectedNodes w;
     activeTimers := activeTimers w;
     openSessions := openSessions w;
     nextId := nextId w;
     tasks := v;
     playback := playback w;
     realtimeSent := realtimeSent w;
     toolResponsesSent := toolResponsesSent w;
     console := console w |}.

Definition upd_playback v (w : World) : World :=
  {| liveStreams := liveStreams w;
     openContexts := openContexts w;
     connectedNodes := connectedNodes w;
     activeTimers := activeTimers w;
     openSessions := openSessions w;
     nextId := nextId w;
     tasks := tasks w;
     playback := v;
     realtimeSent := realtimeSent w;
     toolResponsesSent := toolResponsesSent w;
     console := console w |}.

Definition upd_realtimeSent v (w : World) : World :=
  {| liveStreams := liveStreams w;
     openContexts := openContexts w;
     connectedNodes := connectedNodes w;
     activeTimers := activeTimers w;
     openSessions := openSessions w;
     nextId := nextId w;
     tasks := tasks w;
     playback := playback w;
     realtimeSent := v;
     toolResponsesSent := toolResponsesSent w;
     console := console w |}.

Definition upd_toolResponsesSent v (w : World) : World :=
  {| liveStreams := liveStreams w;
     openContexts := openContexts w;
     connectedNodes := connectedNodes w;
     activeTimers := activeTimers w;
     openSessions := openSessions w;
     nextId := nextId w;
     tasks := tasks w;
     playback := playback w;
     realtimeSent := realtimeSent w;
     toolResponsesSent := v;
     console := console w |}.

Definition upd_console v (w : World) : World :=
  {| liveStreams := liveStreams w;
     openContexts := openContexts w;
     connectedNodes := connectedNodes w;
     activeTimers := activeTimers w;
     openSessions := openSessions w;
     nextId := nextId w;
     tasks := tasks w;
     playback := playback w;
     realtimeSent := realtimeSent w;
     toolResponsesSent := toolResponsesSent w;
     console := v |}.

(** ** A state monad with JavaScript exceptions

    A thrown exception keeps every mutation made before the [throw]; a
    [try]/[catch] resumes from the state at the throw point. *)

Inductive Res (A : Type) :=
| Ok (a : A) (s : State)
| Thrown (e : string) (s : State).

Arguments Ok {A} a s.
Arguments Thrown {A} e s.

Definition M (A : Type) := State -> Res A.

Definition ret {A} (a : A) : M A := fun s => Ok a s.

Definition bind {A B} (m : M A) (k : A -> M B) : M B :=
  fun s => match m s with
           | Ok a s' => k a s'
           | Thrown e s' => Thrown e s'
           end.

Definition throw {A} (e : string) : M A := fun s => Thrown e s.

Definition tryCatch (m : M unit) (handler : string -> M unit) : M unit :=
  fun s => match m s with
           | Ok a s' => Ok a s'
           | Thrown e s' => handler e s'
           end.

Definition gets {A} (f : State -> A) : M A := fun s => Ok (f s) s.

Definition modify (f : State -> State) : M unit := fun s => Ok tt (f s).

Declare Scope js_scope.
Delimit Scope js_scope with js.
Notation "x <- c ;; k" := (bind c (fun x => k))
  (at level 61, c at next level, right associativity) : js_scope.
Notation "c ;; k" := (bind c (fun _ => k))
  (at level 61, right associativity) : js_scope.
Local Open Scope js_scope.

(** The state a computation leaves behind, thrown or not. *)
Definition final {A} (r : Res A) : State :=
  match r with Ok _ s => s | Thrown _ s => s end.

Definition exec {A} (m : M A) (s : State) : State := final (m s).

Definition when (b : bool) (m : M unit) : M unit :=
  if b then m else ret tt.

Definition whenSome {A} (o : option A) (f : A -> M unit) : M unit :=
  match o with Some a => f a | None => ret tt end.

Definition isSome {A} (o : option A) : bool :=
  match o with Some _ => true | None => false end.

(** A property read through [undefined] throws a [TypeError]. *)
Definition deref {A} (o : option A) : M A :=
  match o with Some a => ret a | None => throw "TypeError" end.

(** JavaScript truthiness of an optional string: present and not empty. *)
Definition truthy (o : option string) : bool :=
  match o with
  | Some EmptyString => false
  | Some _ => true
  | None => false
  end.

(** ** Platform primitives *)

Definition setRef (f : Refs -> Refs) : M unit := modify (with_refs f).
Definition setUi (f : Ui -> Ui) : M unit := modify (with_ui f).
Definition setWorld (f : World -> World) : M unit := modify (with_world f).

Definition ref {A} (f : Refs -> A) : M A := gets (fun s => f (refs s)).
Definition uiState {A} (f : Ui -> A) : M A := gets (fun s => f (ui s)).

Definition drop (x : Id) (l : list Id) : list Id := remove Nat.eq_dec x l.

Definition mem (x : Id) (l : list Id) : bool :=
  if in_dec Nat.eq_dec x l then true else false.

(** A new platform object. *)
Definition fresh : M Id :=
  n <- gets (fun s => nextId (world s)) ;;
  setWorld (upd_nextId (S n)) ;;
  ret n.

Definition consoleLog (msg : string) : M unit :=
  modify (with_world (fun w => upd_console (console w ++ [msg]) w)).

(** Leave a continuation behind at an [await] or a callback registration. *)
Definition spawn (t : Task) : M unit :=
  modify (with_world (fun w => upd_tasks (tasks w ++ [t]) w)).

Definition disconnect (n : Id) : M unit :=
  modify (with_world (fun w => upd_connectedNodes (drop n (connectedNodes w)) w)).

Definition connectNode (n : Id) : M unit :=
  modify (with_world (fun w => upd_connectedNodes (n :: connectedNodes w) w)).

Definition contextIsClosed (c : Id) : M bool :=
  gets (fun s => negb (mem c (openContexts (world s)))).

Definition closeContext (c : Id) : M unit :=
  modify (with_world (fun w => upd_openContexts (drop c (openContexts w)) w)).

Definition newAudioContext : M Id :=
  c <- fresh ;;
  modify (with_world (fun w => upd_openContexts (c :: openContexts w) w)) ;;
  ret c.

Definition clearInterval (t : Id) : M unit :=
  modify (with_world (fun w => upd_activeTimers (drop t (activeTimers w)) w)).

Definition setInterval : M Id :=
  t <- fresh ;;
  modify (with_world (fun w => upd_activeTimers (t :: activeTimers w) w)) ;;
  ret t.

Definition stopTracks (st : Id) : M unit :=
  modify (with_world (fun w => upd_liveStreams (drop st (liveStreams w)) w)).

(** [getUserMedia] resolving: the platform hands over a live stream. *)
Definition grantStream : M Id :=
  st <- fresh ;;
  modify (with_world (fun w => upd_liveStreams (st :: liveStreams w) w)) ;;
  ret st.

Definition closeSession (x : Id) : M unit :=
  modify (with_world (fun w => upd_openSessions (drop x (openSessions w)) w)).

(** [ai.live.connect]: a connection is being established and its promise is
    pending. *)
Definition liveConnect : M Id :=
  x <- fresh ;;
  modify (with_world (fun w => upd_openSessions (x :: openSessions w) w)) ;;
  spawn (ConnectPending x) ;;
  ret x.

Definition sendRealtimeInput (x : Id) (media : Media) : M unit :=
  modify (with_world (fun w => upd_realtimeSent (realtimeSent w ++ [(x, media)]) w)).

Definition sendToolResponse (x : Id) (rs : list FunctionResponse) : M unit :=
  modify (with_world
            (fun w => upd_toolResponsesSent (toolResponsesSent w ++ [(x, rs)]) w)).

Definition startSource (ctx : Id) (startTime duration : Q) : M unit :=
  modify (with_world
            (fun w => upd_playback
                        (playback w ++ [{| seg_ctx := ctx;
                                           seg_start := startTime;
                                           seg_duration := duration |}]) w)).

(** ** Strings *)

(** [String.prototype.toLowerCase] on the ASCII range. *)
Definition lowerChar (c : ascii) : ascii :=
  let n := nat_of_ascii c in
  if (65 <=? n)%nat && (n <=? 90)%nat then ascii_of_nat (n + 32) else c.

Fixpoint toLowerCase (s : string) : string :=
  match s with
  | EmptyString => EmptyString
  | String c t => String (lowerChar c) (toLowerCase t)
  end.

(** [String.prototype.includes]. *)
Fixpoint includes (s k : string) : bool :=
  String.prefix k s ||
  match s with
  | EmptyString => false
  | String _ t => includes t k
  end.

(** ** Session teardown: [stopSession] *)

Definition stopSession : M unit :=
  setRef (upd_activeRef false) ;;
  (* Stop Audio Processing First *)
  src <- ref inputSourceRef ;;
  whenSome src (fun n => disconnect n ;; setRef (upd_inputSourceRef None)) ;;
  proc <- ref processorRef ;;
  whenSome proc (fun n => disconnect n ;; setRef (upd_processorRef None)) ;;
  (* Close Audio Context Safely *)
  actx <- ref audioContextRef ;;
  whenSome actx (fun c =>
    closed <- contextIsClosed c ;;
    when (negb closed)
         (tryCatch (closeContext c)
                   (fun _ => consoleLog "Error closing AudioContext"))) ;;
  setRef (upd_audioContextRef None) ;;
  (* Stop Video Processing *)
  timer <- ref frameIntervalRef ;;
  whenSome timer (fun t => clearInterval t ;; setRef (upd_frameIntervalRef None)) ;;
  stream <- ref videoSrcObject ;;
  whenSome stream (fun st => stopTracks st ;; setRef (upd_videoSrcObject None)) ;;
  (* Close GenAI Session *)
  sess <- ref sessionRef ;;
  whenSome sess (fun x =>
    tryCatch (closeSession x) (fun _ => consoleLog "Error closing session") ;;
    setRef (upd_sessionRef None)) ;;
  setUi (upd_isConnected false) ;;
  setUi (upd_isStreaming false) ;;
  setUi (upd_audioAnalyser None) ;;
  setUi (upd_triageStatus None) ;;
  setUi (upd_isCPRMode false).

(** ** Session start: [startSession], cut at its three [await]s *)

Definition startFailed : M unit :=
  consoleLog "startSession failed" ;;
  setUi (upd_error (Some "Failed to access camera/microphone or connect to AI.")) ;;
  stopSession.

(** Up to [await getUserLocation()]. *)
Definition startSession : M unit :=
  setUi (upd_error None) ;;
  stopSession ;;
  setRef (upd_activeRef true) ;;
  spawn StartAwaitLocation.

(** From the location to [await getUserMedia(...)]. *)
Definition startSession_afterLocation (location : string) : M unit :=
  active <- ref activeRef ;;
  if negb active then ret tt else
  setUi (upd_userLocation location) ;;
  spawn (StartAwaitMedia location).

(** From the media stream to [await audioCtx.resume()]. *)
Definition startSession_afterMedia (location : string) (stream : Id) : M unit :=
  active <- ref activeRef ;;
  if negb active then stopTracks stream else
  setRef (upd_videoSrcObject (Some stream)) ;;
  audioCtx <- newAudioContext ;;
  spawn (StartAwaitResume location stream audioCtx).

(** From the resumed context to the end of the [try] block. *)
Definition startSession_afterResume (location : string) (stream audioCtx : Id)
  : M unit :=
  setRef (upd_audioContextRef (Some audioCtx)) ;;
  analyser <- fresh ;;
  setUi (upd_audioAnalyser (Some analyser)) ;;
  _ <- liveConnect ;;
  source <- fresh ;;
  processor <- fresh ;;
  connectNode source ;;
  connectNode processor ;;
  setRef (upd_inputSourceRef (Some source)) ;;
  setRef (upd_processorRef (Some processor)).

(** [sessionPromise.then(...)] and [.catch(...)]. *)
Definition connect_then (sess : Id) : M unit :=
  active <- ref activeRef ;;
  if active then setRef (upd_sessionRef (Some sess)) else closeSession sess.

Definition connect_catch : M unit :=
  consoleLog "Connection failed" ;;
  active <- ref activeRef ;;
  when active
       (setUi (upd_error (Some "Failed to connect to AI Service.")) ;;
        stopSession).

(** ** Connection callbacks *)

Definition onopen : M unit :=
  consoleLog "Live Session Connected" ;;
  active <- ref activeRef ;;
  when active (setUi (upd_isConnected true) ;; setUi (upd_isStreaming true)).

Definition onclose : M unit :=
  consoleLog "Live Session Closed" ;;
  active <- ref activeRef ;;
  when active stopSession.

Definition onerror : M unit :=
  consoleLog "Live Session Error" ;;
  active <- ref activeRef ;;
  when active
       (setUi (upd_error (Some "Service unavailable. Retrying...")) ;;
        stopSession ;;
        setUi (upd_error (Some "Connection failed. Service may be unavailable."))).

(** ** Audio capture *)

(** Modelled from the spec: [AUDIO_INPUT_SAMPLE_RATE] of utils/audio, the
    input rate the service requires; the resampler is named after it. *)
Definition AUDIO_INPUT_SAMPLE_RATE : Z := 16000.

(** Linear interpolation of [buffer] at the fractional index [pos]; past
    the last sample the last sample is held. *)
Definition lerpAt (buffer : list Q) (pos : Q) : Q :=
  let i := Z.to_nat (Qfloor pos) in
  let frac := pos - inject_Z (Qfloor pos) in
  let a := nth i buffer 0 in
  let b := nth (S i) buffer a in
  a + (b - a) * frac.

(** Modelled from the spec: [downsampleTo16k] of utils/audio.  "Resamples
    linearly from the native rate to the service's required input rate
    (no anti-aliasing filter ...): output length = floor(input length x
    target_rate / source_rate)". *)
Definition downsampleTo16k (buffer : list Q) (sampleRate : Z) : list Q :=
  let newLength :=
    Z.to_nat (Z.of_nat (List.length buffer) * AUDIO_INPUT_SAMPLE_RATE / sampleRate) in
  map (fun i => lerpAt buffer
                  (inject_Z (Z.of_nat i * sampleRate)
                   / inject_Z AUDIO_INPUT_SAMPLE_RATE))
      (seq 0 newLength).

(** Modelled from the spec: [createAudioContentBlob] of utils/audio
    "converts floating samples to the service's required encoding and
    base64-wraps them"; the chunk is represented by the samples it
    encodes. *)
Definition createAudioContentBlob (samples : list Q) : list Q := samples.

(** [processor.onaudioprocess], up to [sessionPromise.then]. *)
Definition onaudioprocess (sess : Id) (inputData : list Q) (sampleRate : Z)
  : M unit :=
  active <- ref activeRef ;;
  if negb active then ret tt else
  let downsampledData := downsampleTo16k inputData sampleRate in
  let blob := createAudioContentBlob downsampledData in
  spawn (AudioSendPending sess blob).

(** The callback given to [sessionPromise.then] by [onaudioprocess]. *)
Definition audioSend_then (session : Id) (blob : list Q) : M unit :=
  active <- ref activeRef ;;
  when active
       (tryCatch (sendRealtimeInput session (AudioChunk blob))
                 (fun _ => ret tt)).

(** ** Video frame sampling *)

Definition scaleOf (q : Quality) : Q :=
  match q with low => 1 # 4 | medium => 1 # 2 | high => 1 end.

Definition jpegQualityOf (q : Quality) : Q :=
  match q with low => 1 # 2 | _ => 7 # 10 end.

(** The effect on [isConnected, isStreaming, fps, quality]: the cleanup of
    the previous run, then the body. *)
Definition videoEffect_cleanup : M unit :=
  timer <- ref frameIntervalRef ;;
  whenSome timer clearInterval.

Definition videoEffect : M unit :=
  streaming <- uiState isStreaming ;;
  connected <- uiState isConnected ;;
  if negb streaming || negb connected then
    timer <- ref frameIntervalRef ;;
    whenSome timer (fun t => clearInterval t ;; setRef (upd_frameIntervalRef None))
  else
    t <- setInterval ;;
    setRef (upd_frameIntervalRef (Some t)).

(** [captureAndSendFrame], up to [canvas.toBlob].  [videoWidth],
    [videoHeight] and whether the canvas yields a 2D context come from the
    platform. *)
Definition captureAndSendFrame (videoWidth videoHeight : Z) (has2d : bool)
  : M unit :=
  sess <- ref sessionRef ;;
  active <- ref activeRef ;;
  if negb (isSome sess) || negb active then ret tt else
  if negb has2d then ret tt else
  q <- uiState quality ;;
  let scale := scaleOf q in
  when ((0 <? videoWidth)%Z && (0 <? videoHeight)%Z)
       (spawn (EncodePending
                 {| job_width := Qfloor (inject_Z videoWidth * scale);
                    job_height := Qfloor (inject_Z videoHeight * scale);
                    job_jpegQuality := jpegQualityOf q |})).

(** The [toBlob] callback, up to [await blobToBase64(blob)]. *)
Definition onBlob (job : FrameJob) (hasBlob : bool) : M unit :=
  active <- ref activeRef ;;
  when (hasBlob && active) (spawn (Base64Pending job)).

(** After [await blobToBase64(blob)]: [sessionRef.current] is read inside
    the [try]; a [null] there throws and is swallowed. *)
Definition afterBase64 (job : FrameJob) : M unit :=
  tryCatch (sess <- ref sessionRef ;;
            x <- deref sess ;;
            sendRealtimeInput x (VideoFrame job))
           (fun _ => ret tt).

(** ** Inbound messages: [handleServerMessage] *)

(** Lines 395-398: the playback scheduler. *)
Definition scheduleSegment (audioCtx : Id) (currentTime duration : Q) : M unit :=
  next <- ref nextStartTimeRef ;;
  let startTime := Qmax next currentTime in
  startSource audioCtx startTime duration ;;
  setRef (upd_nextStartTimeRef (startTime + duration)).

Definition UPDATE_TRIAGE_STATUS : string := "updateTriageStatus".

Definition nameIs (n : option string) (k : string) : bool :=
  match n with Some x => String.eqb x k | None => false end.

(** The CPR keyword test of lines 423-424, on the lower-cased text. *)
Definition hasCprKeyword (actionText : string) : bool :=
  includes actionText "cpr"
  || includes actionText "chest compression"
  || includes actionText "resuscitation".

(** One iteration of the loop over [functionCalls]. *)
Definition processCall (dateNow : Z) (responses : list FunctionResponse)
           (fc : FunctionCall) : M (list FunctionResponse) :=
  if nameIs (fc_name fc) UPDATE_TRIAGE_STATUS then
    consoleLog "Updating Triage Status:" ;;
    args <- deref (fc_args fc) ;;
    let statusData :=
      {| condition := arg_condition args;
         riskLevel := arg_riskLevel args;
         immediateAction := arg_immediateAction args;
         hospitalUrgency := arg_hospitalUrgency args;
         department := arg_department args;
         contraindications := arg_contraindications args;
         reasoning := arg_reasoning args;
         recommendedHospital := arg_recommendedHospital args;
         lastUpdated := dateNow;
         source := LIVE_OBSERVATION |} in
    setUi (upd_triageStatus (Some statusData)) ;;
    (* Check for CPR keywords to trigger Intervention Mode *)
    text <- deref (arg_immediateAction args) ;;
    let actionText := toLowerCase text in
    when (hasCprKeyword actionText) (setUi (upd_isCPRMode true)) ;;
    ret (responses ++ [{| fr_id := fc_id fc;
                          fr_name := fc_name fc;
                          fr_result := "Status updated." |}])
  else ret responses.

Fixpoint processCalls (dateNow : Z) (responses : list FunctionResponse)
         (fcs : list FunctionCall) : M (list FunctionResponse) :=
  match fcs with
  | [] => ret responses
  | fc :: rest =>
      responses' <- processCall dateNow responses fc ;;
      processCalls dateNow responses' rest
  end.

(** The [if (message.toolCall)] block. *)
Definition handleToolCall (dateNow : Z) (m : Message) : M unit :=
  whenSome (toolCall m) (fun tc =>
    fcs <- deref tc ;;
    responses <- processCalls dateNow [] fcs ;;
    sess <- ref sessionRef ;;
    active <- ref activeRef ;;
    when ((0 <? List.length responses)%nat && isSome sess && active)
         (x <- deref sess ;; sendToolResponse x responses)).

(** The two transcription blocks. *)
Definition handleTranscription (m : Message) : M unit :=
  when (truthy (inputTranscription m))
       (whenSome (inputTranscription m)
                 (fun t => setUi (upd_transcription ("You: " ++ t)%string))) ;;
  when (truthy (outputTranscription m))
       (whenSome (outputTranscription m)
                 (fun t => setUi (upd_transcription ("LifeLine: " ++ t)%string))).

Definition messageError : string -> M unit :=
  fun _ => consoleLog "Error processing server message".

(** The outcome of [await decodeAudioData(base64ToUint8Array(audioData),
    audioCtx)]: a buffer of some duration, read with the audio clock at
    that moment, or an exception. *)
Inductive DecodeResult :=
| Decoded (duration currentTime : Q)
| DecodeFailed.

(** [handleServerMessage] from its first line to the [await] (when there is
    audio) or to its end (when there is none). *)
Definition handleServerMessage (dateNow : Z) (m : Message) (audioCtx : Id)
  : M unit :=
  if truthy (audioData m) then spawn (DecodePending m audioCtx)
  else tryCatch (handleToolCall dateNow m ;; handleTranscription m) messageError.

(** [handleServerMessage] from the [await] to its end. *)
Definition handleServerMessage_afterDecode (dateNow : Z) (m : Message)
           (audioCtx : Id) (r : DecodeResult) : M unit :=
  tryCatch
    (match r with
     | Decoded duration currentTime => scheduleSegment audioCtx currentTime duration
     | DecodeFailed => throw "decode"
     end ;;
     handleToolCall dateNow m ;;
     handleTranscription m)
    messageError.

(** The [onmessage] callback. *)
Definition onmessage (dateNow : Z) (m : Message) (audioCtx : Id) : M unit :=
  active <- ref activeRef ;;
  if negb active then ret tt else handleServerMessage dateNow m audioCtx.

(** ** The controller as a machine driven by its environment *)

(** How the environment completes a suspended task. *)
Inductive Outcome :=
| LocationIs (location : string)
| MediaGranted
| MediaDenied
| Resumed
| ResumeFailed
| Connected
| ConnectFailed
| DecodeDone (dateNow : Z) (r : DecodeResult)
| ThenRuns
| BlobReady (hasBlob : bool)
| Base64Ready.

Inductive Event :=
| CallStart
| CallStop
| Complete (i : nat) (o : Outcome)
| OnOpen
| OnMessage (dateNow : Z) (m : Message) (audioCtx : Id)
| OnClose
| OnError
| AudioProcess (sess : Id) (inputData : list Q) (sampleRate : Z)
| RenderEffect
| Tick (videoWidth videoHeight : Z) (has2d : bool).

(** The code that runs when task [t] completes with outcome [o]. *)
Definition resume (t : Task) (o : Outcome) : option (M unit) :=
  match t, o with
  | StartAwaitLocation, LocationIs location =>
      Some (startSession_afterLocation location)
  | StartAwaitMedia location, MediaGranted =>
      Some (stream <- grantStream ;; startSession_afterMedia location stream)
  | StartAwaitMedia _, MediaDenied => Some startFailed
  | StartAwaitResume location stream audioCtx, Resumed =>
      Some (startSession_afterResume location stream audioCtx)
  | StartAwaitResume _ _ _, ResumeFailed => Some startFailed
  | ConnectPending x, Connected => Some (connect_then x)
  | ConnectPending x, ConnectFailed => Some (closeSession x ;; connect_catch)
  | DecodePending m audioCtx, DecodeDone dateNow r =>
      Some (handleServerMessage_afterDecode dateNow m audioCtx r)
  | AudioSendPending x blob, ThenRuns => Some (audioSend_then x blob)
  | EncodePending job, BlobReady hasBlob => Some (onBlob job hasBlob)
  | Base64Pending job, Base64Ready => Some (afterBase64 job)
  | _, _ => None
  end.

Fixpoint removeNth {A} (i : nat) (l : list A) : list A :=
  match l, i with
  | [], _ => []
  | _ :: t, O => t
  | x :: t, S j => x :: removeNth j t
  end.

Definition takeTask (i : nat) : M unit :=
  modify (with_world (fun w => upd_tasks (removeNth i (tasks w)) w)).

Definition handler (s : State) (e : Event) : M unit :=
  match e with
  | CallStart => startSession
  | CallStop => stopSession
  | Complete i o =>
      match nth_error (tasks (world s)) i with
      | Some t =>
          match resume t o with
          | Some k => takeTask i ;; k
          | None => ret tt
          end
      | None => ret tt
      end
  | OnOpen => onopen
  | OnMessage dateNow m audioCtx => onmessage dateNow m audioCtx
  | OnClose => onclose
  | OnError => onerror
  | AudioProcess sess inputData sampleRate =>
      onaudioprocess sess inputData sampleRate
  | RenderEffect => videoEffect_cleanup ;; videoEffect
  | Tick videoWidth videoHeight has2d =>
      (* the timer only fires while an interval is registered *)
      match activeTimers (world s) with
      | [] => ret tt
      | _ :: _ => captureAndSendFrame videoWidth videoHeight has2d
      end
  end.

Definition step (s : State) (e : Event) : State := exec (handler s e) s.

Definition run (es : list Event) (s : State) : State := fold_left step es s.

(** The component right after mounting. *)
Definition initialState : State :=
  {| ui := {| isConnected := false;
              isStreaming := false;
              error := None;
              triageStatus := None;
              transcription := "";
              audioAnalyser := None;
              userLocation := "Unknown";
              isCPRMode := false;
              fps := 1;
              quality := medium |};
     refs := {| videoSrcObject := None;
                audioContextRef := None;
                inputSourceRef := None;
                processorRef := None;
                nextStartTimeRef := 0;
                sessionRef := None;
                frameIntervalRef := None;
                activeRef := false |};
     world := {| liveStreams := [];
                 openContexts := [];
                 connectedNodes := [];
                 activeTimers := [];
                 openSessions := [];
                 nextId := 1%nat;
                 tasks := [];
                 playback := [];
                 realtimeSent := [];
                 toolResponsesSent := [];
                 console := [] |} |}.

(** A session brought up the ordinary way: start, location, devices,
    audio context, connection, open. *)
Definition bringUp : list Event :=
  [ CallStart;
    Complete 0 (LocationIs "52.5200, 13.4050");
    Complete 0 MediaGranted;
    Complete 0 Resumed;
    Complete 0 Connected;
    OnOpen;
    RenderEffect ].

Definition liveState : State := run bringUp initialState.

(** * Vocabulary of the statements

    Observations of the state, invariants, closed forms and the concrete
    messages and event sequences the theorems below speak about. *)

(** [keeps obs m]: running [m], to completion or to a throw, does not
    change the observation [obs] of the state. *)
Definition keeps {X : Type} (obs : State -> X) {A} (m : M A) : Prop :=
  forall s, obs (final (m s)) = obs s.

(** The cursor and the list of scheduled segments. *)
Definition timeline (s : State) : Q * list Segment :=
  (nextStartTimeRef (refs s), playback (world s)).

(** No two scheduled segments overlap: a segment ends no later than any
    segment scheduled after it starts. *)
Definition NoOverlap (l : list Segment) : Prop :=
  ForallOrdPairs (fun a b => seg_end a <= seg_start b) l.

(** The invariant of the scheduler: the segments do not overlap and none
    ends after the cursor. *)
Definition Gapless (s : State) : Prop :=
  NoOverlap (playback (world s)) /\
  Forall (fun g => seg_end g <= nextStartTimeRef (refs s)) (playback (world s)).

(** What an event schedules, if anything: the audio context, the clock
    reading and the duration of the decoded buffer. *)
Definition scheduledBy (s : State) (e : Event) : option (Id * Q * Q) :=
  match e with
  | Complete i (DecodeDone _ (Decoded duration currentTime)) =>
      match nth_error (tasks (world s)) i with
      | Some (DecodePending _ audioCtx) => Some (audioCtx, currentTime, duration)
      | _ => None
      end
  | _ => None
  end.

(** The timeline after one scheduling step. *)
Definition advance (tl : Q * list Segment) (c : Id * Q * Q) : Q * list Segment :=
  let '(audioCtx, currentTime, duration) := c in
  let startTime := Qmax (fst tl) currentTime in
  (startTime + duration,
   snd tl ++ [{| seg_ctx := audioCtx;
                 seg_start := startTime;
                 seg_duration := duration |}]).

(** Buffer durations are never negative. *)
Definition nonnegDuration (e : Event) : Prop :=
  match e with
  | Complete _ (DecodeDone _ (Decoded duration _)) => 0 <= duration
  | _ => True
  end.

(** The playback cursor. *)
Definition cursor (s : State) : Q := nextStartTimeRef (refs s).

(** A live session that receives a 0.5 s chunk at clock 10 and a 0.3 s
    chunk at clock 10.2. *)
Definition twoChunks : list Event :=
  bringUp ++
  [ OnMessage 0 {| audioData := Some "UklGRg=="; toolCall := None;
                   inputTranscription := None; outputTranscription := None |} 2%nat;
    Complete 0 (DecodeDone 0 (Decoded (1 # 2) 10));
    OnMessage 0 {| audioData := Some "AAAAAA=="; toolCall := None;
                   inputTranscription := None; outputTranscription := None |} 2%nat;
    Complete 0 (DecodeDone 0 (Decoded (3 # 10) (51 # 5))) ].

(** Release the object a ref points to, if any. *)
Definition dropOpt (o : option Id) (l : list Id) : list Id :=
  match o with Some x => drop x l | None => l end.

(** The state [stopSession] leaves, in closed form. *)
Definition stopped (s : State) : State :=
  {| ui := upd_isCPRMode false
             (upd_triageStatus None
                (upd_audioAnalyser None
                   (upd_isStreaming false (upd_isConnected false (ui s)))));
     refs := {| videoSrcObject := None;
                audioContextRef := None;
                inputSourceRef := None;
                processorRef := None;
                nextStartTimeRef := nextStartTimeRef (refs s);
                sessionRef := None;
                frameIntervalRef := None;
                activeRef := false |};
     world := {| liveStreams := dropOpt (videoSrcObject (refs s)) (liveStreams (world s));
                 openContexts := dropOpt (audioContextRef (refs s)) (openContexts (world s));
                 connectedNodes :=
                   dropOpt (processorRef (refs s))
                           (dropOpt (inputSourceRef (refs s)) (connectedNodes (world s)));
                 activeTimers := dropOpt (frameIntervalRef (refs s)) (activeTimers (world s));
                 openSessions := dropOpt (sessionRef (refs s)) (openSessions (world s));
                 nextId := nextId (world s);
                 tasks := tasks (world s);
                 playback := playback (world s);
                 realtimeSent := realtimeSent (world s);
                 toolResponsesSent := toolResponsesSent (world s);
                 console := console (world s) |} |}.

(** Nothing is acquired any more. *)
Definition Released (s : State) : Prop :=
  liveStreams (world s) = [] /\
  openContexts (world s) = [] /\
  connectedNodes (world s) = [] /\
  activeTimers (world s) = [] /\
  openSessions (world s) = [].

(** Everything acquired is reachable from a ref, so that [stopSession] can
    find it. *)
Definition Owned (s : State) : Prop :=
  (forall x, In x (liveStreams (world s)) -> videoSrcObject (refs s) = Some x) /\
  (forall x, In x (openContexts (world s)) -> audioContextRef (refs s) = Some x) /\
  (forall x, In x (connectedNodes (world s)) ->
             inputSourceRef (refs s) = Some x \/ processorRef (refs s) = Some x) /\
  (forall x, In x (activeTimers (world s)) -> frameIntervalRef (refs s) = Some x) /\
  (forall x, In x (openSessions (world s)) -> sessionRef (refs s) = Some x).

(** Events that schedule nothing, whatever the state. *)
Definition schedulesNothing (e : Event) : bool :=
  match e with
  | Complete _ (DecodeDone _ (Decoded _ _)) => false
  | _ => true
  end.

(** The interrupted start of C2: [stopSession] arrives while
    [startSession] waits for [audioCtx.resume()]. *)
Definition stopMidConnect : list Event :=
  [ CallStart;
    Complete 0 (LocationIs "52.5200, 13.4050");
    Complete 0 MediaGranted;
    CallStop;
    Complete 0 Resumed;
    Complete 0 Connected ].

(** The state after the [catch] block of [handleServerMessage]. *)
Definition logError (s : State) : State :=
  with_world (fun w => upd_console (console w ++ ["Error processing server message"]) w) s.

(** The continuations that consult [activeRef] (or find [sessionRef]
    cleared) before doing anything an observer could see.  Left out are
    the continuation of [startSession] after [audioCtx.resume()], its
    [catch] block, and the continuation of [handleServerMessage] after a
    successful decode. *)
Definition guarded (t : Task) (o : Outcome) : bool :=
  match t, o with
  | StartAwaitLocation, LocationIs _ => true
  | StartAwaitMedia _, MediaGranted => true
  | ConnectPending _, (Connected | ConnectFailed) => true
  | DecodePending _ _, DecodeDone _ DecodeFailed => true
  | AudioSendPending _ _, ThenRuns => true
  | EncodePending _, BlobReady _ => true
  | Base64Pending _, Base64Ready => true
  | _, _ => false
  end.

(** What the user, the remote service and the loudspeaker can observe. *)
Definition outward (s : State) :=
  (ui s, realtimeSent (world s), toolResponsesSent (world s),
   playback (world s), nextStartTimeRef (refs s)).

(** A message with audio, a tool call that asks for CPR and a transcript
    of the model's speech. *)
Definition cprCall : FunctionCall :=
  {| fc_id := Some "call-1";
     fc_name := Some "updateTriageStatus";
     fc_args := Some {| arg_condition := Some "Cardiac Arrest";
                        arg_riskLevel := Some "EMERGENCY";
                        arg_immediateAction := Some "Start CPR immediately.";
                        arg_hospitalUrgency := Some "RUSH_TO_ER";
                        arg_department := Some "Cardiology";
                        arg_contraindications := Some "Do not stop compressions.";
                        arg_reasoning := Some "No breathing movement.";
                        arg_recommendedHospital := None |} |}.

Definition cprMessage : Message :=
  {| audioData := Some "UklGRg==";
     toolCall := Some (Some [cprCall]);
     inputTranscription := None;
     outputTranscription := Some "Begin chest compressions now." |}.

(** The message arrives on a live session; [stopSession] runs while its
    audio is being decoded; then the decode completes. *)
Definition stopDuringDecode : list Event :=
  bringUp ++
  [ OnMessage 0 cprMessage 2%nat;
    CallStop;
    Complete 0 (DecodeDone 1 (Decoded (1 # 2) 10)) ].















(** The encode request of a tick. *)
Definition frameJob (q : Quality) (videoWidth videoHeight : Z) : FrameJob :=
  {| job_width := Qfloor (inject_Z videoWidth * scaleOf q);
     job_height := Qfloor (inject_Z videoHeight * scaleOf q);
     job_jpegQuality := jpegQualityOf q |}.

(** The guard of a tick: a session handle, an active session, a 2D context
    and frame dimensions. *)
Definition tickCaptures (s : State) (videoWidth videoHeight : Z) (has2d : bool)
  : bool :=
  isSome (sessionRef (refs s)) && activeRef (refs s) && has2d
  && (0 <? videoWidth)%Z && (0 <? videoHeight)%Z.

Definition pendingEncodes (s : State) : nat :=
  List.length (filter (fun t => match t with EncodePending _ => true | _ => false end)
                      (tasks (world s))).

Definition framesSent (s : State) : nat :=
  List.length (filter (fun p => match snd p with VideoFrame _ => true | _ => false end)
                      (realtimeSent (world s))).

(** * Reasoning principles *)

(** ** Frames: what a computation leaves untouched

    [keeps obs m] says that running [m], to completion or to a throw,
    does not change the observation [obs] of the state. *)

Section Frame.
Context {X : Type} (obs : State -> X).

Lemma keeps_ret {A} (a : A) : keeps obs (ret a).
Proof. intro s. reflexivity. Qed.

Lemma keeps_throw {A} (e : string) : keeps obs (@throw A e).
Proof. intro s. reflexivity. Qed.

Lemma keeps_gets {A} (f : State -> A) : keeps obs (gets f).
Proof. intro s. reflexivity. Qed.

Lemma keeps_modify (f : State -> State) :
  (forall s, obs (f s) = obs s) -> keeps obs (modify f).
Proof. intros H s. apply H. Qed.

Lemma keeps_bind {A B} (m : M A) (k : A -> M B) :
  keeps obs m -> (forall a, keeps obs (k a)) -> keeps obs (bind m k).
Proof.
  intros Hm Hk s. unfold bind. specialize (Hm s).
  destruct (m s) as [a s'|e s']; simpl in *.
  - rewrite Hk. exact Hm.
  - exact Hm.
Qed.

Lemma keeps_tryCatch (m : M unit) (h : string -> M unit) :
  keeps obs m -> (forall e, keeps obs (h e)) -> keeps obs (tryCatch m h).
Proof.
  intros Hm Hh s. unfold tryCatch. specialize (Hm s).
  destruct (m s) as [a s'|e s']; simpl in *.
  - exact Hm.
  - rewrite Hh. exact Hm.
Qed.

Lemma keeps_when (b : bool) (m : M unit) : keeps obs m -> keeps obs (when b m).
Proof. intro H. destruct b; simpl; [exact H | apply keeps_ret]. Qed.

Lemma keeps_whenSome {A} (o : option A) (f : A -> M unit) :
  (forall a, keeps obs (f a)) -> keeps obs (whenSome o f).
Proof. intro H. destruct o; simpl; [apply H | apply keeps_ret]. Qed.

Lemma keeps_deref {A} (o : option A) : keeps obs (deref o).
Proof. destruct o; intro s; reflexivity. Qed.
End Frame.

(** Decompose a computation along its syntax; the leaves are field updates
    that do not touch the observation. *)
Ltac frame_step :=
  first
    [ apply keeps_ret
    | apply keeps_throw
    | apply keeps_gets
    | apply keeps_deref
    | apply keeps_bind; [ | intro ]
    | apply keeps_tryCatch; [ | intro ]
    | apply keeps_when
    | apply keeps_whenSome; intro
    | apply keeps_modify; intro; reflexivity
    | match goal with
      | |- keeps _ (if ?b then _ else _) => destruct b
      | |- keeps _ (match ?x with _ => _ end) => destruct x
      end ].

Ltac frame_with unfolds := repeat (first [ frame_step | progress unfolds ]).

Ltac unfold_prims :=
  unfold setRef, setUi, setWorld, ref, uiState, fresh, consoleLog, spawn,
    disconnect, connectNode, contextIsClosed, closeContext, newAudioContext,
    clearInterval, setInterval, stopTracks, grantStream, closeSession,
    liveConnect, sendRealtimeInput, sendToolResponse, takeTask.

Ltac frame := frame_with unfold_prims.

(** ** The playback timeline *)

Lemma stopSession_keeps_timeline : keeps timeline stopSession.
Proof. unfold stopSession. frame. Qed.

Lemma processCalls_keeps_timeline dateNow fcs :
  forall responses, keeps timeline (processCalls dateNow responses fcs).
Proof.
  induction fcs as [|fc rest IH]; intro responses; simpl.
  - apply keeps_ret.
  - apply keeps_bind; [ | intro; apply IH ].
    unfold processCall. frame.
Qed.

Lemma handleToolCall_keeps_timeline dateNow m :
  keeps timeline (handleToolCall dateNow m).
Proof.
  unfold handleToolCall.
  apply keeps_whenSome; intro tc.
  apply keeps_bind; [ apply keeps_deref | intro fcs ].
  apply keeps_bind; [ apply processCalls_keeps_timeline | intro responses ].
  frame.
Qed.

Lemma handleTranscription_keeps_timeline m :
  keeps timeline (handleTranscription m).
Proof. unfold handleTranscription. frame. Qed.

Lemma afterDecode_timeline dateNow m audioCtx duration currentTime s :
  timeline (exec (handleServerMessage_afterDecode dateNow m audioCtx
                    (Decoded duration currentTime)) s)
  = advance (timeline s) (audioCtx, currentTime, duration).
Proof.
  unfold exec, handleServerMessage_afterDecode.
  assert (K : keeps timeline
                (tryCatch (handleToolCall dateNow m ;; handleTranscription m)
                          messageError)).
  { apply keeps_tryCatch.
    - apply keeps_bind; [ apply handleToolCall_keeps_timeline | intro ].
      apply handleTranscription_keeps_timeline.
    - intro e. unfold messageError. frame. }
  set (s1 := final (scheduleSegment audioCtx currentTime duration s)).
  specialize (K s1). unfold tryCatch, bind in *.
  change (scheduleSegment audioCtx currentTime duration s) with (Ok tt s1 : Res unit).
  cbv beta iota.
  destruct (handleToolCall dateNow m s1) as [a s2|e s2]; simpl in K |- *.
  - destruct (handleTranscription m s2) as [a' s3|e s3]; simpl in K |- *;
      rewrite K; reflexivity.
  - rewrite K. reflexivity.
Qed.

Lemma afterDecodeFailed_timeline dateNow m audioCtx :
  keeps timeline (handleServerMessage_afterDecode dateNow m audioCtx DecodeFailed).
Proof. unfold handleServerMessage_afterDecode, messageError. frame. Qed.

Lemma handleServerMessage_keeps_timeline dateNow m audioCtx :
  keeps timeline (handleServerMessage dateNow m audioCtx).
Proof.
  unfold handleServerMessage.
  destruct (truthy (audioData m)).
  - frame.
  - apply keeps_tryCatch.
    + apply keeps_bind; [ apply handleToolCall_keeps_timeline | intro ].
      apply handleTranscription_keeps_timeline.
    + intro e. unfold messageError. frame.
Qed.

Lemma startFailed_keeps_timeline : keeps timeline startFailed.
Proof.
  unfold startFailed.
  repeat (apply keeps_bind; [ | intro ]); try apply stopSession_keeps_timeline;
    frame.
Qed.

Lemma connect_catch_keeps_timeline : keeps timeline connect_catch.
Proof.
  unfold connect_catch.
  apply keeps_bind; [ frame | intro ].
  apply keeps_bind; [ frame | intro active ].
  apply keeps_when.
  apply keeps_bind; [ frame | intro ].
  apply stopSession_keeps_timeline.
Qed.

Lemma resume_keeps_timeline t o k :
  resume t o = Some k ->
  (forall dateNow d c, o <> DecodeDone dateNow (Decoded d c)) ->
  keeps timeline k.
Proof.
  intros R N.
  destruct t, o; simpl in R; try discriminate; inversion R; subst; clear R.
  - unfold startSession_afterLocation. frame.
  - apply keeps_bind; [ frame | intro ].
    unfold startSession_afterMedia. frame.
  - apply startFailed_keeps_timeline.
  - unfold startSession_afterResume. frame.
  - apply startFailed_keeps_timeline.
  - unfold connect_then. frame.
  - apply keeps_bind; [ frame | intro ].
    apply connect_catch_keeps_timeline.
  - destruct r as [d c|].
    + exfalso. exact (N dateNow d c eq_refl).
    + apply afterDecodeFailed_timeline.
  - unfold audioSend_then. frame.
  - unfold onBlob. frame.
  - unfold afterBase64. frame.
Qed.

Lemma startSession_keeps_timeline : keeps timeline startSession.
Proof.
  unfold startSession.
  apply keeps_bind; [ frame | intro ].
  apply keeps_bind; [ apply stopSession_keeps_timeline | intro ]. frame.
Qed.

Lemma onerror_keeps_timeline : keeps timeline onerror.
Proof.
  unfold onerror.
  apply keeps_bind; [ frame | intro ].
  apply keeps_bind; [ frame | intro active ].
  apply keeps_when.
  apply keeps_bind; [ frame | intro ].
  apply keeps_bind; [ apply stopSession_keeps_timeline | intro ]. frame.
Qed.

(** An event that schedules nothing leaves the timeline alone. *)
Lemma handler_keeps_timeline s e :
  scheduledBy s e = None -> keeps timeline (handler s e).
Proof.
  intro H.
  destruct e as [| |i o| |dateNow m audioCtx| | |sess inputData rate| |vw vh c];
    simpl handler.
  - apply startSession_keeps_timeline.
  - apply stopSession_keeps_timeline.
  - destruct (nth_error (tasks (world s)) i) as [t|] eqn:Ht; [ | frame ].
    destruct (resume t o) as [k|] eqn:Hr; [ | frame ].
    apply keeps_bind; [ frame | intro ].
    eapply resume_keeps_timeline; [ exact Hr | ].
    intros dn d c ->.
    destruct t; simpl in Hr; try discriminate.
    simpl in H. rewrite Ht in H. discriminate.
  - unfold onopen. frame.
  - unfold onmessage.
    apply keeps_bind; [ frame | intro active ].
    destruct (negb active); [ frame | apply handleServerMessage_keeps_timeline ].
  - unfold onclose.
    apply keeps_bind; [ frame | intro ].
    apply keeps_bind; [ frame | intro active ].
    apply keeps_when, stopSession_keeps_timeline.
  - apply onerror_keeps_timeline.
  - unfold onaudioprocess. frame.
  - unfold videoEffect_cleanup, videoEffect. frame.
  - destruct (activeTimers (world s)); [ frame | ].
    unfold captureAndSendFrame. frame.
Qed.

(** Every event either leaves the timeline alone or advances it by one
    scheduling step. *)
Lemma step_timeline s e :
  timeline (step s e) =
  match scheduledBy s e with
  | Some c => advance (timeline s) c
  | None => timeline s
  end.
Proof.
  destruct (scheduledBy s e) as [[[audioCtx currentTime] duration]|] eqn:H.
  - destruct e as [| |i o| | | | | | |]; try discriminate.
    destruct o as [| | | | | | |dn [d c|]| | |]; try discriminate.
    simpl in H. unfold step. simpl handler.
    destruct (nth_error (tasks (world s)) i) as [[| | | |m ctx| | |]|];
      try discriminate.
    inversion H; subst; clear H. simpl resume. cbv iota.
    change (timeline
              (exec (handleServerMessage_afterDecode dn m audioCtx
                       (Decoded duration currentTime))
                    (with_world (fun w => upd_tasks (removeNth i (tasks w)) w) s))
            = advance (timeline s) (audioCtx, currentTime, duration)).
    rewrite afterDecode_timeline. reflexivity.
  - apply handler_keeps_timeline. exact H.
Qed.

Lemma NoOverlap_snoc l g :
  NoOverlap l ->
  Forall (fun a => seg_end a <= seg_start g) l ->
  NoOverlap (l ++ [g]).
Proof.
  unfold NoOverlap. intros HL. induction HL as [|a l Ha HL IH]; intro HF; simpl.
  - constructor; [ constructor | constructor ].
  - inversion HF; subst. constructor.
    + apply Forall_app. split; [ exact Ha | constructor; [ assumption | constructor ] ].
    + apply IH. assumption.
Qed.

Lemma advance_Gapless s s' audioCtx currentTime duration :
  timeline s' = advance (timeline s) (audioCtx, currentTime, duration) ->
  0 <= duration ->
  Gapless s -> Gapless s'.
Proof.
  unfold Gapless, timeline, advance. cbn [fst snd].
  intros E Hd [HN HF]. inversion E as [[Ec Ep]]. clear E.
  rewrite Ec, Ep. split.
  - apply NoOverlap_snoc; [ exact HN | ].
    eapply Forall_impl; [ | exact HF ]. cbn beta. intros a Ha. cbn [seg_start].
    pose proof (Q.le_max_l (nextStartTimeRef (refs s)) currentTime). lra.
  - apply Forall_app. split.
    + eapply Forall_impl; [ | exact HF ]. cbn beta. intros a Ha.
      pose proof (Q.le_max_l (nextStartTimeRef (refs s)) currentTime). lra.
    + constructor; [ | constructor ]. unfold seg_end. cbn [seg_start seg_duration]. lra.
Qed.

Lemma step_Gapless s e : nonnegDuration e -> Gapless s -> Gapless (step s e).
Proof.
  intros Hd G. pose proof (step_timeline s e) as T.
  destruct (scheduledBy s e) as [[[audioCtx currentTime] duration]|] eqn:H.
  - eapply advance_Gapless; [ exact T | | exact G ].
    destruct e as [| |i o| | | | | | |]; try discriminate.
    destruct o as [| | | | | | |dn [d c|]| | |]; try discriminate.
    simpl in H.
    destruct (nth_error (tasks (world s)) i) as [[| | | |m ctx| | |]|];
      try discriminate.
    inversion H; subst. exact Hd.
  - unfold Gapless, timeline in *. inversion T as [[Ec Ep]].
    rewrite Ec, Ep. exact G.
Qed.

Lemma step_cursor_le s e : nonnegDuration e -> cursor s <= cursor (step s e).
Proof.
  intro Hd. pose proof (step_timeline s e) as T. unfold cursor.
  destruct (scheduledBy s e) as [[[audioCtx currentTime] duration]|] eqn:H.
  - assert (0 <= duration).
    { destruct e as [| |i o| | | | | | |]; try discriminate.
      destruct o as [| | | | | | |dn [d c|]| | |]; try discriminate.
      simpl in H.
      destruct (nth_error (tasks (world s)) i) as [[| | | |m ctx| | |]|];
        try discriminate.
      inversion H; subst. exact Hd. }
    unfold timeline, advance in T. cbn [fst snd] in T. inversion T as [[Ec Ep]].
    rewrite Ec.
    pose proof (Q.le_max_l (nextStartTimeRef (refs s)) currentTime). lra.
  - unfold timeline in T. inversion T as [[Ec Ep]]. rewrite Ec. lra.
Qed.

Lemma run_app es es' s : run (es ++ es') s = run es' (run es s).
Proof. unfold run. apply fold_left_app. Qed.

Lemma run_Gapless es :
  forall s, Forall nonnegDuration es -> Gapless s -> Gapless (run es s).
Proof.
  induction es as [|e es IH]; intros s HF G; simpl.
  - exact G.
  - inversion HF; subst. apply IH; [ assumption | ]. apply step_Gapless; assumption.
Qed.

Lemma run_cursor_le es :
  forall s, Forall nonnegDuration es -> cursor s <= cursor (run es s).
Proof.
  induction es as [|e es IH]; intros s HF; simpl.
  - lra.
  - inversion HF; subst.
    pose proof (step_cursor_le s e ltac:(assumption)).
    pose proof (IH (step s e) ltac:(assumption)). lra.
Qed.

Lemma initialState_Gapless : Gapless initialState.
Proof. split; constructor. Qed.

(** * The claims *)

(** C1.  For every decoded inbound audio chunk the scheduler starts the
    segment at [max(nextStartTime, currentTime)] and moves the cursor to
    that start time plus the duration of the segment.  Hence, along any
    sequence of events from the mounted component in which buffer durations
    are not negative, whatever the clock readings, the scheduled segments
    never overlap and the cursor never decreases.  In particular, from a
    cursor not ahead of the clock reading [T], a 0.5 s chunk processed at
    [T] moves the cursor to [T + 0.5], and a 0.3 s chunk processed at
    [T + 0.2] is then started at [T + 0.5], not at [T + 0.2], and moves the
    cursor to [T + 0.8]. *)
Theorem gapless_playback_schedule :
  (forall dateNow m audioCtx duration currentTime s,
      let s' := exec (handleServerMessage_afterDecode dateNow m audioCtx
                        (Decoded duration currentTime)) s in
      let startTime := Qmax (cursor s) currentTime in
      playback (world s') =
        playback (world s) ++ [{| seg_ctx := audioCtx;
                                  seg_start := startTime;
                                  seg_duration := duration |}]
      /\ cursor s' = startTime + duration)
  /\
  (forall es es',
      Forall nonnegDuration es -> Forall nonnegDuration es' ->
      NoOverlap (playback (world (run es initialState)))
      /\ cursor (run es initialState) <= cursor (run (es ++ es') initialState))
  /\
  (forall dateNow dateNow' m m' audioCtx T s,
      cursor s <= T ->
      let s1 := exec (handleServerMessage_afterDecode dateNow m audioCtx
                        (Decoded (1 # 2) T)) s in
      let s2 := exec (handleServerMessage_afterDecode dateNow' m' audioCtx
                        (Decoded (3 # 10) (T + (1 # 5)))) s1 in
      cursor s1 == T + (1 # 2)
      /\ (exists g, playback (world s2) = playback (world s1) ++ [g]
                    /\ seg_start g == T + (1 # 2)
                    /\ ~ seg_start g == T + (1 # 5))
      /\ cursor s2 == T + (4 # 5)).
Proof.
  assert (chunk : forall dateNow m audioCtx duration currentTime s,
      let s' := exec (handleServerMessage_afterDecode dateNow m audioCtx
                        (Decoded duration currentTime)) s in
      let startTime := Qmax (cursor s) currentTime in
      playback (world s') =
        playback (world s) ++ [{| seg_ctx := audioCtx;
                                  seg_start := startTime;
                                  seg_duration := duration |}]
      /\ cursor s' = startTime + duration).
  { intros dateNow m audioCtx duration currentTime s s' startTime.
    pose proof (afterDecode_timeline dateNow m audioCtx duration currentTime s) as T.
    unfold timeline, advance in T. cbn [fst snd] in T.
    inversion T as [[Ec Ep]]. split; [ exact Ep | exact Ec ]. }
  split; [ exact chunk | split ].
  - intros es es' Hes Hes'. split.
    + apply run_Gapless; [ exact Hes | apply initialState_Gapless ].
    + rewrite run_app. apply run_cursor_le. exact Hes'.
  - intros dateNow dateNow' m m' audioCtx T s HT s1 s2.
    destruct (chunk dateNow m audioCtx (1 # 2) T s) as [P1 C1].
    destruct (chunk dateNow' m' audioCtx (3 # 10) (T + (1 # 5)) s1) as [P2 C2].
    fold s1 in P1, C1. fold s2 in P2, C2.
    assert (E1 : cursor s1 == T + (1 # 2)).
    { rewrite C1. rewrite (Q.max_r (cursor s) T HT). reflexivity. }
    assert (M2 : Qmax (cursor s1) (T + (1 # 5)) == T + (1 # 2)).
    { rewrite Q.max_l; [ exact E1 | lra ]. }
    split; [ exact E1 | split ].
    + eexists. split; [ exact P2 | ]. cbn [seg_start]. split; [ exact M2 | ].
      rewrite M2. lra.
    + rewrite C2, M2. lra.
Qed.

Lemma gapless_playback_schedule_witness :
  NoOverlap (playback (world (run twoChunks initialState)))
  /\ cursor (exec (handleServerMessage_afterDecode 0
                     {| audioData := Some "UklGRg=="; toolCall := None;
                        inputTranscription := None; outputTranscription := None |}
                     2%nat (Decoded (1 # 2) 10)) liveState) == 10 + (1 # 2).
Proof.
  split.
  - apply (proj1 (proj2 gapless_playback_schedule) twoChunks []).
    + unfold twoChunks, bringUp. repeat constructor; simpl; lra.
    + constructor.
  - refine (proj1 (proj2 (proj2 gapless_playback_schedule) 0%Z 0%Z _
                     {| audioData := Some "AAAAAA=="; toolCall := None;
                        inputTranscription := None; outputTranscription := None |}
                     2%nat 10 liveState _)).
    vm_compute. discriminate.
Defined.

(** ** Teardown *)

Lemma drop_absent c l : mem c l = false -> drop c l = l.
Proof.
  unfold mem, drop. destruct (in_dec Nat.eq_dec c l) as [Hin|Hout].
  - discriminate.
  - intros _. apply notin_remove. exact Hout.
Qed.

Lemma stopSession_never_throws s : stopSession s = Ok tt (stopped s).
Proof.
  destruct s as [u [v a i p n x f act] [ls oc cn tm os ni tk pb rs ts co]].
  unfold stopSession, stopped.
  destruct a as [c|].
  - destruct v, i, p, x, f; cbv -[mem drop];
      destruct (mem c oc) eqn:Hm; cbv -[drop];
      try reflexivity; rewrite (drop_absent c oc Hm); reflexivity.
  - destruct v, i, p, x, f; reflexivity.
Qed.

Lemma exec_stopSession s : exec stopSession s = stopped s.
Proof. unfold exec. rewrite stopSession_never_throws. reflexivity. Qed.

Lemma stopped_idempotent s : stopped (stopped s) = stopped s.
Proof. destruct s as [[] [] []]; reflexivity. Qed.

Lemma dropOpt_all o l :
  (forall x, In x l -> o = Some x) -> dropOpt o l = [].
Proof.
  intro H. destruct o as [a|]; simpl.
  - unfold drop. induction l as [|b l IH]; simpl; [ reflexivity | ].
    assert (Some a = Some b) as E by (apply H; left; reflexivity).
    inversion E; subst b.
    destruct (Nat.eq_dec a a) as [_|N]; [ | congruence ].
    apply IH. intros x Hx. apply H. right. exact Hx.
  - destruct l as [|b l]; [ reflexivity | ].
    specialize (H b (or_introl eq_refl)). discriminate.
Qed.

Lemma In_drop x y l : In x (drop y l) -> In x l /\ x <> y.
Proof. unfold drop. apply in_remove. Qed.

Lemma stopped_Released s : Owned s -> Released (stopped s).
Proof.
  intros (Hs & Hc & Hn & Ht & Hx). unfold Released, stopped; cbn.
  repeat split; try (apply dropOpt_all; assumption).
  apply dropOpt_all. intros x Hin.
  destruct (inputSourceRef (refs s)) as [a|] eqn:Ea; simpl in Hin.
  - apply In_drop in Hin. destruct Hin as [Hin Hne].
    destruct (Hn x Hin) as [E|E]; [ congruence | exact E ].
  - destruct (Hn x Hin) as [E|E]; [ discriminate | exact E ].
Qed.

(** A second [stopSession] changes nothing. *)
Lemma stopSession_twice s :
  exec stopSession (exec stopSession s) = exec stopSession s.
Proof. rewrite !exec_stopSession. apply stopped_idempotent. Qed.

(** [startSession] interrupted by [stopSession] while it waits for the
    location or for the devices gives everything back. *)
Lemma stop_during_location_or_media :
  Released (run [CallStart; CallStop; Complete 0 (LocationIs "unknown")] initialState)
  /\ Released (run [CallStart; Complete 0 (LocationIs "unknown"); CallStop;
                    Complete 0 MediaGranted] initialState).
Proof. split; vm_compute; repeat split. Qed.

Lemma run_keeps_timeline es :
  forallb schedulesNothing es = true ->
  forall s, timeline (run es s) = timeline s.
Proof.
  induction es as [|e es IH]; intros H s; simpl in *.
  - reflexivity.
  - apply andb_true_iff in H. destruct H as [He Hes].
    rewrite (IH Hes). rewrite step_timeline.
    destruct e as [| |i [| | | | | | |dn [d c|]| | |]| | | | | | |];
      try discriminate; reflexivity.
Qed.

(** C2.  [stopSession] called while [startSession] is suspended at
    [await audioCtx.resume()] does not leave the controller free of
    resources.  The audio context exists already but is not yet stored in
    [audioContextRef], so the stop cannot close it; and the continuation
    runs without consulting [activeRef], publishes the context and wires
    the capture graph.  When every pending continuation has run, the
    session is inactive, and one audio context is still open and two audio
    nodes still connected. *)
Theorem stop_mid_connect_leaks_audio_context :
  let halted := run [CallStart; Complete 0 (LocationIs "52.5200, 13.4050");
                     Complete 0 MediaGranted; CallStop] initialState in
  let s := run stopMidConnect initialState in
  (activeRef (refs halted) = false
   /\ liveStreams (world halted) = []
   /\ audioContextRef (refs halted) = None
   /\ openContexts (world halted) = [2%nat])
  /\
  (activeRef (refs s) = false
   /\ tasks (world s) = []
   /\ openContexts (world s) = [2%nat]
   /\ audioContextRef (refs s) = Some 2%nat
   /\ connectedNodes (world s) = [6%nat; 5%nat]
   /\ ~ Released s).
Proof.
  vm_compute. repeat split; try reflexivity.
  intros (_ & H & _). discriminate H.
Qed.

(** C10.  [stopSession] resets the connection and streaming flags, the
    displayed triage status and the CPR mode, and releases what the refs
    hold, but leaves the playback cursor, the transcript and the error
    message as they were; a session started after a stop therefore begins
    with the cursor of the previous session, not with 0. *)
Theorem stop_keeps_cursor_transcript_error :
  (forall s,
      let s' := exec stopSession s in
      isConnected (ui s') = false
      /\ isStreaming (ui s') = false
      /\ triageStatus (ui s') = None
      /\ isCPRMode (ui s') = false
      /\ activeRef (refs s') = false
      /\ (videoSrcObject (refs s') = None
          /\ liveStreams (world s')
             = dropOpt (videoSrcObject (refs s)) (liveStreams (world s)))
      /\ (audioContextRef (refs s') = None
          /\ openContexts (world s')
             = dropOpt (audioContextRef (refs s)) (openContexts (world s)))
      /\ (inputSourceRef (refs s') = None /\ processorRef (refs s') = None
          /\ connectedNodes (world s')
             = dropOpt (processorRef (refs s))
                 (dropOpt (inputSourceRef (refs s)) (connectedNodes (world s))))
      /\ (frameIntervalRef (refs s') = None
          /\ activeTimers (world s')
             = dropOpt (frameIntervalRef (refs s)) (activeTimers (world s)))
      /\ (sessionRef (refs s') = None
          /\ openSessions (world s')
             = dropOpt (sessionRef (refs s)) (openSessions (world s)))
      /\ nextStartTimeRef (refs s') = nextStartTimeRef (refs s)
      /\ transcription (ui s') = transcription (ui s)
      /\ error (ui s') = error (ui s))
  /\ (forall s, cursor (run (CallStop :: bringUp) s) = cursor s)
  /\ (cursor (run (twoChunks ++ CallStop :: bringUp) initialState) == 54 # 5
      /\ ~ cursor (run (twoChunks ++ CallStop :: bringUp) initialState) == 0).
Proof.
  split; [ | split ].
  - intros s s'. subst s'. rewrite exec_stopSession.
    destruct s as [[] [] []]. cbn. repeat split.
  - intro s.
    exact (f_equal fst (run_keeps_timeline (CallStop :: bringUp) eq_refl s)).
  - vm_compute. split; [ reflexivity | discriminate ].
Qed.

(** ** Inbound messages *)




(** ** Which continuations honour a stop *)

Lemma guarded_continuations_respect_stop t o k s :
  guarded t o = true ->
  resume t o = Some k ->
  activeRef (refs s) = false ->
  sessionRef (refs s) = None ->
  outward (exec k s) = outward s.
Proof.
  intros G R Hactive Hsess.
  destruct s as [u [v a i p n x f act] w]. simpl in Hactive, Hsess. subst act x.
  destruct t, o as [| | | | | | |dn [d c|]| |[]|]; simpl in G; try discriminate;
    simpl in R; inversion R; subst k; reflexivity.
Qed.

(** C3.  Two continuations run after [stopSession] without consulting
    [activeRef].  The continuation of [handleServerMessage] after
    [await decodeAudioData(...)]: a message accepted while the session was
    active and decoded after the stop still schedules playback, moves the
    cursor, publishes a triage status, raises the CPR mode and replaces the
    transcript.  And the continuation of [startSession] after
    [await audioCtx.resume()]: it publishes an analyser to the UI and opens
    a connection to the remote service, on a session that was stopped. *)
Theorem decode_continuation_ignores_stop :
  let stopped_ := run (bringUp ++ [OnMessage 0 cprMessage 2%nat; CallStop]) initialState in
  let s := run stopDuringDecode initialState in
  let halted := run [CallStart; Complete 0 (LocationIs "52.5200, 13.4050");
                     Complete 0 MediaGranted; CallStop] initialState in
  let resumed := step halted (Complete 0 Resumed) in
  (activeRef (refs stopped_) = false
   /\ tasks (world stopped_) = [DecodePending cprMessage 2%nat]
   /\ triageStatus (ui stopped_) = None
   /\ isCPRMode (ui stopped_) = false
   /\ transcription (ui stopped_) = ""
   /\ playback (world stopped_) = []
   /\ cursor stopped_ = 0)
  /\
  (activeRef (refs s) = false
   /\ isSome (triageStatus (ui s)) = true
   /\ isCPRMode (ui s) = true
   /\ transcription (ui s) = "LifeLine: Begin chest compressions now."
   /\ playback (world s) = [{| seg_ctx := 2%nat; seg_start := 10; seg_duration := 1 # 2 |}]
   /\ cursor s == 21 # 2)
  /\
  (activeRef (refs halted) = false
   /\ tasks (world halted) = [StartAwaitResume "52.5200, 13.4050" 1%nat 2%nat]
   /\ audioAnalyser (ui halted) = None
   /\ openSessions (world halted) = [])
  /\
  (activeRef (refs resumed) = false
   /\ audioAnalyser (ui resumed) = Some 3%nat
   /\ openSessions (world resumed) = [4%nat]
   /\ tasks (world resumed) = [ConnectPending 4%nat]).
Proof. vm_compute. repeat split. Qed.

(** C8.  When decoding an inbound audio chunk fails, the handler logs the
    failure and changes nothing else: no segment is scheduled, the cursor
    [nextStartTimeRef] and every other ref are as before, nothing is thrown
    and the session stays as active as it was.  The next chunk that decodes
    is therefore scheduled from the cursor left by the last scheduled
    segment. *)
Theorem decode_failure_keeps_cursor :
  forall dateNow m audioCtx s,
    handleServerMessage_afterDecode dateNow m audioCtx DecodeFailed s
      = Ok tt (logError s)
    /\ playback (world (logError s)) = playback (world s)
    /\ nextStartTimeRef (refs (logError s)) = nextStartTimeRef (refs s)
    /\ refs (logError s) = refs s
    /\ ui (logError s) = ui s
    /\ (forall dateNow' m' duration currentTime,
          let s' := exec (handleServerMessage_afterDecode dateNow' m' audioCtx
                            (Decoded duration currentTime))
                         (logError s) in
          playback (world s') =
            playback (world s)
            ++ [{| seg_ctx := audioCtx;
                   seg_start := Qmax (nextStartTimeRef (refs s)) currentTime;
                   seg_duration := duration |}]
          /\ nextStartTimeRef (refs s')
             = Qmax (nextStartTimeRef (refs s)) currentTime + duration).
Proof.
  intros dateNow m audioCtx s.
  split; [ reflexivity | ].
  repeat (split; [ reflexivity | ]).
  intros dateNow' m' duration currentTime s'.
  pose proof (afterDecode_timeline dateNow' m' audioCtx duration currentTime
                (logError s)) as T.
  fold s' in T. unfold timeline, advance in T. cbn [fst snd] in T.
  split; [ exact (f_equal snd T) | exact (f_equal fst T) ].
Qed.

(** ** Tool calls *)










(** ** Malformed tool arguments *)








(** ** The CPR keyword trigger *)












(** ** Resampling *)

(** C6.  For every input buffer and every positive source sample rate
    [R], the resampler returns exactly [floor(len * target / R)] samples,
    where [target] is [AUDIO_INPUT_SAMPLE_RATE]; being a function of the
    buffer and the rate it is deterministic.  This is the chunk the capture
    callback hands over while the session is active. *)
Theorem downsample_length :
  forall buffer sampleRate,
    (0 < sampleRate)%Z ->
    Z.of_nat (List.length (downsampleTo16k buffer sampleRate))
    = (Z.of_nat (List.length buffer) * AUDIO_INPUT_SAMPLE_RATE / sampleRate)%Z
    /\ (forall sess s,
          activeRef (refs s) = true ->
          tasks (world (exec (onaudioprocess sess buffer sampleRate) s))
          = tasks (world s)
            ++ [AudioSendPending sess (downsampleTo16k buffer sampleRate)]).
Proof.
  intros buffer sampleRate HR. split.
  - unfold downsampleTo16k. rewrite length_map, length_seq.
    apply Z2Nat.id. apply Z.div_pos; [ | exact HR ].
    unfold AUDIO_INPUT_SAMPLE_RATE. lia.
  - intros sess s Hactive. unfold exec, onaudioprocess, bind, ref, gets.
    rewrite Hactive. reflexivity.
Qed.

Lemma downsample_length_witness :
  Z.of_nat (List.length (downsampleTo16k [0; 1 # 2; 1; 1 # 2; 0; -1 # 2] 48000))
  = 2%Z
  /\ tasks (world (exec (onaudioprocess 4%nat [0; 1 # 2; 1; 1 # 2; 0; -1 # 2] 48000)
                       liveState))
     = [AudioSendPending 4%nat
          (downsampleTo16k [0; 1 # 2; 1; 1 # 2; 0; -1 # 2] 48000)].
Proof.
  pose proof (downsample_length [0; 1 # 2; 1; 1 # 2; 0; -1 # 2] 48000
                ltac:(reflexivity)) as [Hlen Htask].
  split.
  - exact Hlen.
  - exact (Htask 4%nat liveState eq_refl).
Defined.

(** ** Frame sampling *)

(** C7, as stated, fails: a tick that finds the encode of the previous tick
    still pending does not skip; it starts a second encode, and both frames
    are sent when the encodes complete. *)
Lemma frame_sampler_counterexample :
  let s1 := step liveState (Tick 640 480 true) in
  let s2 := step s1 (Tick 640 480 true) in
  let s3 := run [Complete 0 (BlobReady true); Complete 0 (BlobReady true);
                 Complete 0 Base64Ready; Complete 0 Base64Ready] s2 in
  pendingEncodes liveState = 0%nat
  /\ pendingEncodes s1 = 1%nat
  /\ pendingEncodes s2 = 2%nat
  /\ framesSent s3 = 2%nat.
Proof. vm_compute. repeat split. Qed.

(** C7 (amended).  A tick skips entirely, leaving the state as it is, when
    there is no session handle, the session is not active, the canvas has
    no 2D context or the frame has no dimensions; otherwise it starts
    exactly one capture, whether or not an earlier one is still pending, and
    sends nothing itself.  A finished encode is dropped when it produced no
    blob or the session is no longer active, and otherwise leads to at most
    one frame being sent, none if the session handle is gone: so each tick
    yields at most one frame, and nothing is queued by the controller. *)
Theorem frame_sampler_per_tick :
  (forall videoWidth videoHeight has2d s,
      exec (captureAndSendFrame videoWidth videoHeight has2d) s
      = if tickCaptures s videoWidth videoHeight has2d
        then exec (spawn (EncodePending
                            (frameJob (quality (ui s)) videoWidth videoHeight))) s
        else s)
  /\ (forall job s,
        tasks (world (exec (spawn (EncodePending job)) s))
          = tasks (world s) ++ [EncodePending job]
        /\ realtimeSent (world (exec (spawn (EncodePending job)) s))
           = realtimeSent (world s)
        /\ pendingEncodes (exec (spawn (EncodePending job)) s)
           = S (pendingEncodes s))
  /\ (forall job hasBlob s,
        exec (onBlob job hasBlob) s
        = if hasBlob && activeRef (refs s)
          then exec (spawn (Base64Pending job)) s
          else s)
  /\ (forall job s,
        exec (afterBase64 job) s
        = match sessionRef (refs s) with
          | Some x => exec (sendRealtimeInput x (VideoFrame job)) s
          | None => s
          end).
Proof.
  repeat split.
  - intros videoWidth videoHeight has2d s.
    unfold exec, captureAndSendFrame, tickCaptures, bind, ref, uiState, gets.
    destruct (sessionRef (refs s)), (activeRef (refs s)), has2d; simpl;
      try reflexivity.
    destruct (0 <? videoWidth)%Z, (0 <? videoHeight)%Z; reflexivity.
  - unfold pendingEncodes. simpl. rewrite filter_app, length_app. simpl. lia.
  - intros job hasBlob s. unfold exec, onBlob, bind, ref, gets.
    destruct hasBlob, (activeRef (refs s)); reflexivity.
  - intros job s. unfold exec, afterBase64, tryCatch, bind, ref, gets.
    destruct (sessionRef (refs s)); reflexivity.
Qed.
